(** * Expense Tracker AI Assistant: a shallow embedding of [main.py]

    The development follows the layout of the service:
    - Python string and number formatting used by the f-strings;
    - the chunk builder [process_excel_data];
    - a state-and-exception monad over the Chroma store and the log of
      outbound calls, in which the three endpoints [upload_expenses],
      [chat] and [health_check] and the helper [call_lm_studio] are written;
    - the properties of the specification, stated on these definitions.

    Python [str] values are byte strings holding UTF-8 text.  Prices are
    [float] in the source; here they are exact rationals, so every sum is
    the mathematical one and [:.2f] rounds the exact value. *)

From Stdlib Require Import Ascii String QArith Qabs Lqa ZArith Lia.
From stdpp Require Import gmap strings list fin_maps pretty sorting.

#[local] Set Warnings "-clear-no-such-hyp".
Local Open Scope string_scope.

(** ** Python strings *)

Module PyStr.

Definition nl : string := String "010" "".
Definition dquote : string := String "034" "".
Definition squote : string := String "039" "".
Definition backslash : string := String "092" "".

(** [sep.join(parts)] *)
Fixpoint join (sep : string) (parts : list string) : string :=
  match parts with
  | [] => ""
  | [p] => p
  | p :: rest => p ++ sep ++ join sep rest
  end.

(** [s.endswith(suffix)] *)
Definition endswith (s suffix : string) : bool :=
  let n := String.length s in
  let k := String.length suffix in
  (k <=? n)%nat && String.eqb (String.substring (n - k) k s) suffix.

(** [s.endswith((a, b, ...))]: true when one of the suffixes matches. *)
Definition endswith_any (s : string) (suffixes : list string) : bool :=
  existsb (endswith s) suffixes.

(** [s.replace(old, new)] for one-character [old] and [new]. *)
Fixpoint replace (old new : ascii) (s : string) : string :=
  match s with
  | EmptyString => EmptyString
  | String c s' =>
      String (if Ascii.eqb c old then new else c) (replace old new s')
  end.

(** [str(n).rjust(width, '0')], the zero padding of [%Y], [%m], [%d]
    and of the two decimals of [.2f]. *)
Definition zfill (width : nat) (s : string) : string :=
  String.concat "" (replicate (width - String.length s) "0") ++ s.

(** [repr(s)] of a string that holds no quote, backslash or control
    character: the text between single quotes. *)
Definition repr (s : string) : string := squote ++ s ++ squote.

(** [repr] of a list of such strings, as [f"{missing_columns}"] prints it. *)
Definition repr_list (l : list string) : string :=
  "[" ++ join ", " (repr <$> l) ++ "]".

End PyStr.

(** ** [json.dumps] of strings (the default [ensure_ascii=True]) *)

Module PyJson.

Definition hex_digit (n : N) : ascii :=
  if (n <? 10)%N then ascii_of_N (48 + n) else ascii_of_N (87 + n).

(** The four lower-case hexadecimal digits of [\uXXXX]. *)
Definition hex4 (n : N) : string :=
  String (hex_digit (n / 4096 mod 16))
    (String (hex_digit (n / 256 mod 16))
       (String (hex_digit (n / 16 mod 16))
          (String (hex_digit (n mod 16)) ""))).

Definition u_escape (n : N) : string := PyStr.backslash ++ "u" ++ hex4 n.

(** A code point outside the basic plane is written as a surrogate pair. *)
Definition escape_code_point (cp : N) : string :=
  if (cp <? 65536)%N then u_escape cp
  else
    let v := (cp - 65536)%N in
    u_escape (55296 + v / 1024) ++ u_escape (56320 + v mod 1024).

Definition escape_ascii (b : N) (c : ascii) : string :=
  if (b =? 34)%N then PyStr.backslash ++ PyStr.dquote
  else if (b =? 92)%N then PyStr.backslash ++ PyStr.backslash
  else if (b =? 10)%N then PyStr.backslash ++ "n"
  else if (b =? 13)%N then PyStr.backslash ++ "r"
  else if (b =? 9)%N then PyStr.backslash ++ "t"
  else if (b =? 8)%N then PyStr.backslash ++ "b"
  else if (b =? 12)%N then PyStr.backslash ++ "f"
  else if ((32 <=? b) && (b <=? 126))%N then String c ""
  else u_escape b.

(** The bytes are read left to right; [pending] counts the continuation
    bytes still expected of the current UTF-8 sequence and [acc] holds
    the bits of its code point read so far. *)
Fixpoint escape_from (pending : nat) (acc : N) (s : string) : string :=
  match s with
  | EmptyString => EmptyString
  | String c s' =>
      let b := N_of_ascii c in
      match pending with
      | O =>
          if (b <? 128)%N then escape_ascii b c ++ escape_from 0 0 s'
          else if (b <? 224)%N then escape_from 1 (b - 192) s'
          else if (b <? 240)%N then escape_from 2 (b - 224) s'
          else escape_from 3 (b - 240) s'
      | S O =>
          escape_code_point (acc * 64 + (b - 128)) ++ escape_from 0 0 s'
      | S k => escape_from k (acc * 64 + (b - 128)) s'
      end
  end.

Definition dumps_str (s : string) : string :=
  PyStr.dquote ++ escape_from 0 0 s ++ PyStr.dquote.

Definition dumps_item (kv : string * nat) : string :=
  "  " ++ dumps_str kv.1 ++ ": " ++ pretty kv.2.

(** [json.dumps(d, indent=2)] of a dictionary from strings to integers,
    given as its items in insertion order. *)
Definition dumps_counts (d : list (string * nat)) : string :=
  match d with
  | [] => "{}"
  | _ =>
      "{" ++ PyStr.nl ++ PyStr.join ("," ++ PyStr.nl) (dumps_item <$> d)
          ++ PyStr.nl ++ "}"
  end.

End PyJson.

(** ** Amounts and the [:.2f] format *)

Module Amount.

Local Open Scope Z_scope.

(** The amount in hundredths, rounded to the nearest integer, a tie going
    to the even neighbour (the rounding of Python's float formatting). *)
Definition cents (q : Q) : Z :=
  let n := Qnum q * 100 in
  let d := Z.pos (Qden q) in
  let fl := n / d in
  match 2 * (n mod d) ?= d with
  | Lt => fl
  | Gt => fl + 1
  | Eq => if Z.even fl then fl else fl + 1
  end.


(** [f"{q:.2f}"]: a minus sign for a negative amount (also when it rounds
    to zero), the integer part, a point and two decimals. *)
Definition fmt2 (q : Q) : string :=
  let c := Z.abs (cents q) in
  let sign : string := if Z.ltb (Qnum q) 0 then "-" else "" in
  let whole : string := pretty (Z.div c 100) in
  let decimals : string := PyStr.zfill 2 (pretty (Z.modulo c 100)) in
  (sign ++ whole ++ "." ++ decimals)%string.

(** [sum] of a price column. *)
Definition total (l : list Q) : Q := foldr Qplus 0%Q l.

(** [mean] of a non-empty price column. *)
Definition mean (l : list Q) : Q :=
  (total l / inject_Z (Z.of_nat (length l)))%Q.

End Amount.

(** ** Exceptions

    [HTTPException] is FastAPI's; every other Python exception is kept
    with the text that [str(e)] gives. *)

Inductive exn :=
| HTTPException (status_code : nat) (detail : string)
| Error (message : string).

(** [str(e)].  Starlette prints an [HTTPException] as
    [f"{status_code}: {detail}"]. *)
Definition str_exn (e : exn) : string :=
  match e with
  | HTTPException status_code detail => pretty status_code ++ ": " ++ detail
  | Error message => message
  end.

(** ** The data model: dates, rows, frames and chunks *)

Record Date := { year : nat; month : nat; day : nat }.

(** A calendar month, the value of [dt.to_period('M')]: year and month. *)
Definition Period : Type := nat * nat.

Definition to_period_M (d : Date) : Period := (year d, month d).

(** [str(period)], as in [2024-01]. *)
Definition str_period (p : Period) : string :=
  PyStr.zfill 4 (pretty p.1) ++ "-" ++ PyStr.zfill 2 (pretty p.2).

(** [d.strftime('%Y-%m-%d')] *)
Definition strftime_ymd (d : Date) : string :=
  PyStr.zfill 4 (pretty (year d)) ++ "-" ++ PyStr.zfill 2 (pretty (month d))
    ++ "-" ++ PyStr.zfill 2 (pretty (day d)).

(** A row of the four required columns; [D] is the type of the date cell. *)
Record Row (D : Type) := {
  name : string;
  price : Q;
  category : string;
  date : D
}.
Arguments name {D} _.
Arguments price {D} _.
Arguments category {D} _.
Arguments date {D} _.

(** A date cell as [read_excel] delivers it: a value that [pd.to_datetime]
    converts to the given date, or one that it rejects. *)
Inductive DateCell :=
| Timestamp (d : Date)
| Unparsable (raw : string).

(** A transaction: a row whose date is a calendar date. *)
Definition Transaction : Type := Row Date.

(** The frame read from the spreadsheet: its column labels and its rows.
    The cells of [rows] are read only once the four labels are known to be
    present. *)
Record DataFrame := {
  columns : list string;
  rows : list (Row DateCell)
}.

Record Chunk := {
  text : string;
  metadata : gmap string string
}.

(** ** pandas: [to_datetime], [groupby], [value_counts] *)

(** [pd.to_datetime] over a column: the first rejected cell raises. *)
Fixpoint to_datetime_from (pos : nat) (cells : list DateCell) : exn + list Date :=
  match cells with
  | [] => inr []
  | Timestamp d :: rest =>
      match to_datetime_from (S pos) rest with
      | inl e => inl e
      | inr ds => inr (d :: ds)
      end
  | Unparsable raw :: _ =>
      inl (Error ("Unknown datetime string format, unable to parse: " ++ raw
                    ++ ", at position " ++ pretty pos))
  end.

Definition to_datetime (cells : list DateCell) : exn + list Date :=
  to_datetime_from 0 cells.

(** [df['date'] = dates] *)
Definition set_date (r : Row DateCell) (d : Date) : Transaction :=
  {| name := name r; price := price r; category := category r; date := d |}.

(** The distinct values of a column in order of first appearance. *)
Fixpoint unique {A} `{EqDecision A} (l : list A) : list A :=
  match l with
  | [] => []
  | x :: l' => x :: filter (λ y, y ≠ x) (unique l')
  end.

Definition period_le (a b : Period) : Prop :=
  (a.1 < b.1)%nat ∨ (a.1 = b.1 ∧ (a.2 ≤ b.2)%nat).

Definition str_le (a b : string) : Prop := String.leb a b = true.

#[global] Instance period_le_dec : RelDecision period_le.
Proof. intros a b. unfold period_le. apply _. Defined.

#[global] Instance str_le_dec : RelDecision str_le.
Proof. intros a b. unfold str_le. apply _. Defined.

(** The group keys of [df.groupby(key)]: the distinct keys, sorted. *)
Definition group_keys {A K} `{EqDecision K} (R : relation K) `{!RelDecision R}
    (key : A → K) (l : list A) : list K :=
  merge_sort R (unique (key <$> l)).

(** The rows of one group, in frame order. *)
Definition group_rows {A K} `{EqDecision K} (key : A → K) (k : K)
    (l : list A) : list A :=
  filter (λ r, key r = k) l.

(** Insertion of a counted value below the strictly larger counts. *)
Fixpoint insert_desc (x : string * nat) (l : list (string * nat))
    : list (string * nat) :=
  match l with
  | [] => [x]
  | y :: l' =>
      if (x.2 <? y.2)%nat then y :: insert_desc x l' else x :: y :: l'
  end.

(** [x.value_counts().to_dict()]: each distinct value with its number of
    occurrences, the larger counts first, equal counts in order of first
    appearance. *)
Definition value_counts (l : list string) : list (string * nat) :=
  foldr insert_desc [] ((λ c, (c, length (filter (λ y, y = c) l))) <$> unique l).

(** ** The chunk builder *)

(** A row of [monthly_summary]: the month, the sum and count of [price]
    and the value counts of [category] within the month. *)
Record MonthlyRow := {
  m_month : Period;
  m_sum : Q;
  m_count : nat;
  m_categories : list (string * nat)
}.

(** A row of [category_summary]: the category and the sum, mean and count
    of [price]. *)
Record CategoryRow := {
  c_category : string;
  c_sum : Q;
  c_mean : Q;
  c_count : nat
}.

Definition month_of (t : Transaction) : Period := to_period_M (date t).

Definition monthly_summary (df : list Transaction) : list MonthlyRow :=
  (λ m, let g := group_rows month_of m df in
        {| m_month := m;
           m_sum := Amount.total (price <$> g);
           m_count := length g;
           m_categories := value_counts (category <$> g) |})
    <$> group_keys period_le month_of df.

Definition category_summary (df : list Transaction) : list CategoryRow :=
  (λ c, let g := group_rows category c df in
        {| c_category := c;
           c_sum := Amount.total (price <$> g);
           c_mean := Amount.mean (price <$> g);
           c_count := length g |})
    <$> group_keys str_le category df.

Definition monthly_chunk (row : MonthlyRow) : Chunk :=
  let month := str_period (m_month row) in
  {| text :=
       "Month: " ++ month ++ PyStr.nl
         ++ "        Total expenses: $" ++ Amount.fmt2 (m_sum row) ++ PyStr.nl
         ++ "        Number of transactions: " ++ pretty (m_count row) ++ PyStr.nl
         ++ "        Categories: " ++ PyJson.dumps_counts (m_categories row);
     metadata := {[ "type" := "monthly_summary"; "month" := month ]} |}.

Definition category_chunk (row : CategoryRow) : Chunk :=
  {| text :=
       "Category: " ++ c_category row ++ PyStr.nl
         ++ "Total spent: $" ++ Amount.fmt2 (c_sum row) ++ PyStr.nl
         ++ "Average transaction: $" ++ Amount.fmt2 (c_mean row) ++ PyStr.nl
         ++ "Number of transactions: " ++ pretty (c_count row);
     metadata :=
       {[ "type" := "category_summary"; "category" := c_category row ]} |}.

Definition transaction_chunk (row : Transaction) : Chunk :=
  {| text :=
       "Transaction on " ++ strftime_ymd (date row) ++ PyStr.nl
         ++ "Name: " ++ name row ++ PyStr.nl
         ++ "Category: " ++ category row ++ PyStr.nl
         ++ "Amount: $" ++ Amount.fmt2 (price row);
     metadata :=
       {[ "type" := "transaction";
          "date" := strftime_ymd (date row);
          "category" := category row ]} |}.

(** The three loops of [process_excel_data] over a frame whose dates are
    converted. *)
Definition build_chunks (df : list Transaction) : list Chunk :=
  (monthly_chunk <$> monthly_summary df)
    ++ (category_chunk <$> category_summary df)
    ++ (transaction_chunk <$> df).

(** [process_excel_data(df)]: the date column is converted first, which
    raises on a cell that is no date; the chunks are built from the
    converted frame. *)
Definition process_excel_data (df : DataFrame) : exn + list Chunk :=
  match to_datetime (date <$> rows df) with
  | inl e => inl e
  | inr dates => inr (build_chunks (zip_with set_date (rows df) dates))
  end.

(** The frame that holds the given transactions. *)
Definition frame_of (cols : list string) (txs : list Transaction) : DataFrame :=
  {| columns := cols;
     rows := (λ t, {| name := name t; price := price t;
                      category := category t;
                      date := Timestamp (date t) |}) <$> txs |}.





(** ** JSON values and Python subscripting *)

#[local] Unset Elimination Schemes.
Inductive JSON :=
| JNull
| JBool (b : bool)
| JInt (n : Z)
| JFloat (q : Q)
| JStr (s : string)
| JArr (items : list JSON)
| JObj (items : list (string * JSON)).
#[local] Set Elimination Schemes.

Module PyObj.

(** The name that Python's [TypeError] gives the type of a value. *)
Definition type_name (v : JSON) : string :=
  match v with
  | JNull => "NoneType"
  | JBool _ => "bool"
  | JInt _ => "int"
  | JFloat _ => "float"
  | JStr _ => "str"
  | JArr _ => "list"
  | JObj _ => "dict"
  end.

(** The value of a key in a parsed object: the last entry wins. *)
Fixpoint lookup_key (k : string) (items : list (string * JSON)) : option JSON :=
  match items with
  | [] => None
  | (k', v) :: rest =>
      match lookup_key k rest with
      | Some v' => Some v'
      | None => if String.eqb k' k then Some v else None
      end
  end.

(** The continuation bytes at the head of a string. *)
Fixpoint continuation (s : string) : string :=
  match s with
  | String c s' =>
      let b := N_of_ascii c in
      if ((128 <=? b) && (b <? 192))%N then String c (continuation s') else ""
  | EmptyString => ""
  end.

(** [v[k]] for a string key [k]. *)
Definition getitem_key (v : JSON) (k : string) : exn + JSON :=
  match v with
  | JObj items =>
      match lookup_key k items with
      | Some x => inr x
      | None => inl (Error (PyStr.repr k))
      end
  | JArr _ => inl (Error "list indices must be integers or slices, not str")
  | JStr _ => inl (Error "string indices must be integers, not 'str'")
  | _ =>
      inl (Error (PyStr.squote ++ type_name v ++ PyStr.squote
                    ++ " object is not subscriptable"))
  end.

(** [v[0]] *)
Definition getitem_0 (v : JSON) : exn + JSON :=
  match v with
  | JArr (x :: _) => inr x
  | JArr [] => inl (Error "list index out of range")
  | JStr (String c s) => inr (JStr (String c (continuation s)))
  | JStr EmptyString => inl (Error "string index out of range")
  | JObj _ => inl (Error "0")
  | _ =>
      inl (Error (PyStr.squote ++ type_name v ++ PyStr.squote
                    ++ " object is not subscriptable"))
  end.

End PyObj.

(** ** The collaborators: vector store, embeddings, HTTP client *)

(** An embedding vector; the core never looks inside one. *)
Definition Vector : Type := list Q.

(** One stored document of a collection. *)
Record Entry := {
  e_id : string;
  e_document : string;
  e_embedding : Vector;
  e_metadata : gmap string string
}.

Record Collection := {
  coll_metadata : gmap string string;
  coll_entries : list Entry
}.

Record Message := { role : string; content : string }.

(** The JSON body of the completion request. *)
Record Completion := {
  messages : list Message;
  temperature : Q;
  max_tokens : nat;
  stream : bool
}.

(** The answer of a library call: a value, or the text [str(e)] of the
    exception that the library raises.  A library never raises FastAPI's
    [HTTPException]. *)
Definition Outcome (A : Type) : Type := string + A.

(** The exception raised for a failed library call. *)
Definition outcome {A} (r : Outcome A) : exn + A :=
  match r with
  | inl message => inl (Error message)
  | inr x => inr x
  end.

(** An HTTP response as the code observes it: [status_code], the text of
    the error that [raise_for_status()] raises when the status is no
    success, and the outcome of [json()]. *)
Record Response := {
  status_code : nat;
  status_error : string;
  json : Outcome JSON
}.

(** The uploaded file: its name and its payload. *)
Record UploadFile := { filename : string; file : string }.

(** The calls that leave the process: reading the payload and the HTTP
    requests with their time-outs in seconds. *)
Inductive Call :=
| ReadExcel (payload : string)
| Post (url : string) (timeout : Q) (body : Completion)
| Get (url : string) (timeout : Q).

(** What the outside world answers.  Each field is the behaviour of one
    library call whose code is not part of the service. *)
Record Env := {
  read_excel : string → Outcome DataFrame;
  embed_documents : list string → Outcome (list Vector);
  embed_query : string → Outcome Vector;
  (** the reason, if any, for which Chroma refuses a collection name *)
  create_error : string → option string;
  (** the reason, if any, for which Chroma refuses a batch *)
  add_error : list Entry → option string;
  (** the entries nearest to a vector, nearest first, at most [n_results] *)
  nearest : list Entry → Vector → nat → Outcome (list Entry);
  http_post : string → Q → Completion → Outcome Response;
  http_get : string → Q → Outcome Response
}.

(** The state that the endpoints share: the persistent Chroma store and
    the log of outbound calls. *)
Record World := {
  store : gmap string Collection;
  calls : list Call
}.

(** ** Computations that read and write the world and may raise *)

Definition M (A : Type) : Type := World → (exn + A) * World.

#[global] Instance M_ret : MRet M := λ A x w, (inr x, w).

#[global] Instance M_bind : MBind M := λ A B f m w,
  match m w with
  | (inl e, w') => (inl e, w')
  | (inr x, w') => f x w'
  end.

(** [raise e] *)
#[global] Instance M_throw : MThrow exn M := λ A e w, (inl e, w).

(** [try: body / except Exception as e: handler e] *)
Definition try_except {A} (body : M A) (handler : exn → M A) : M A := λ w,
  match body w with
  | (inl e, w') => handler e w'
  | (inr x, w') => (inr x, w')
  end.

(** The result of a step that does not touch the world. *)
Definition lift {A} (r : exn + A) : M A := λ w, (r, w).

Definition log (c : Call) : M unit := λ w,
  (inr tt, {| store := store w; calls := calls w ++ [c] |}).

Definition get_store : M (gmap string Collection) := λ w, (inr (store w), w).

Definition put_store (s : gmap string Collection) : M unit := λ w,
  (inr tt, {| store := s; calls := calls w |}).

(** ** The service *)

(** Configuration *)
Definition LM_STUDIO_URL : string := "http://localhost:1234/v1/chat/completions".

Record ChatRequest := { question : string; user_id : string }.

Record ChatResponse := { answer : string; sources : list string }.

Record HealthResponse := { status : string; lm_studio_connected : bool }.

(** [f"expenses_{user_id.replace('-', '_')}"], written out in both
    [upload_expenses] and [chat]. *)
Definition collection_name (user_id : string) : string :=
  "expenses_" ++ PyStr.replace "-" "_" user_id.

Definition system_message : string :=
  "You are a helpful financial assistant analyzing expense data. " ++ PyStr.nl
    ++ "    Use the provided context to answer questions about income, expenses, and spending patterns."
    ++ PyStr.nl
    ++ "    Be concise and specific with numbers. If asked about comparisons, calculate differences and percentages.".

Definition completion_messages (prompt context : string) : list Message :=
  [ {| role := "system"; content := system_message |};
    {| role := "user";
       content := "Context:" ++ PyStr.nl ++ context ++ PyStr.nl ++ PyStr.nl
                    ++ "Question: " ++ prompt |} ].

Definition completion_body (prompt context : string) : Completion :=
  {| messages := completion_messages prompt context;
     temperature := 7 # 10;
     max_tokens := 500;
     stream := false |}.

(** [response.raise_for_status()] *)
Definition raise_for_status (response : Response) : M unit :=
  if ((200 <=? status_code response) && (status_code response <? 300))%nat
  then mret tt
  else mthrow (Error (status_error response)).

(** [result["choices"][0]["message"]["content"]] *)
Definition completion_content (result : JSON) : exn + JSON :=
  match PyObj.getitem_key result "choices" with
  | inl e => inl e
  | inr choices =>
      match PyObj.getitem_0 choices with
      | inl e => inl e
      | inr choice =>
          match PyObj.getitem_key choice "message" with
          | inl e => inl e
          | inr message => PyObj.getitem_key message "content"
          end
      end
  end.

Definition required_columns : list string := ["name"; "price"; "category"; "date"].

Section Service.

Variable env : Env.

(** *** The Chroma client

    The calls of the library as the service relies on them: deleting a
    collection that does not exist raises, creating one that exists raises,
    a new collection is empty, [add] appends the batch, and [query] returns
    the nearest entries. *)

Definition delete_collection (name : string) : M unit :=
  s ← get_store;
  match s !! name with
  | None => mthrow (Error ("Collection " ++ name ++ " does not exist."))
  | Some _ => put_store (delete name s)
  end.

(** The handle of a collection is its name. *)
Definition create_collection (name : string) (md : gmap string string)
    : M string :=
  match create_error env name with
  | Some message => mthrow (Error message)
  | None =>
      s ← get_store;
      match s !! name with
      | Some _ => mthrow (Error ("Collection " ++ name ++ " already exists"))
      | None =>
          put_store (<[name := {| coll_metadata := md; coll_entries := [] |}]> s);;
          mret name
      end
  end.

Definition get_collection (name : string) : M string :=
  s ← get_store;
  match s !! name with
  | None => mthrow (Error ("Collection " ++ name ++ " does not exist."))
  | Some _ => mret name
  end.

(** The batch as Chroma stores it: one entry per position. *)
Fixpoint batch (ids documents : list string) (embeddings : list Vector)
    (metadatas : list (gmap string string)) : list Entry :=
  match ids, documents, embeddings, metadatas with
  | i :: ids', d :: documents', v :: embeddings', m :: metadatas' =>
      {| e_id := i; e_document := d; e_embedding := v; e_metadata := m |}
        :: batch ids' documents' embeddings' metadatas'
  | _, _, _, _ => []
  end.

(** [collection.add(documents=, embeddings=, metadatas=, ids=)]: the four
    lists must have one length, and Chroma may refuse the batch. *)
Definition collection_add (collection : string) (documents : list string)
    (embeddings : list Vector) (metadatas : list (gmap string string))
    (ids : list string) : M unit :=
  if negb ((length documents =? length ids)%nat
           && (length embeddings =? length ids)%nat
           && (length metadatas =? length ids)%nat)
  then mthrow (Error "Unequal lengths for fields of the batch")
  else
    let entries := batch ids documents embeddings metadatas in
    match add_error env entries with
    | Some message => mthrow (Error message)
    | None =>
        s ← get_store;
        match s !! collection with
        | None =>
            mthrow (Error ("Collection " ++ collection ++ " does not exist."))
        | Some c =>
            put_store
              (<[collection :=
                   {| coll_metadata := coll_metadata c;
                      coll_entries := coll_entries c ++ entries |}]> s)
        end
    end.

(** [collection.query(query_embeddings=[v], n_results=n)]: the matched
    entries, nearest first. *)
Definition collection_query (collection : string) (v : Vector) (n : nat)
    : M (list Entry) :=
  s ← get_store;
  match s !! collection with
  | None => mthrow (Error ("Collection " ++ collection ++ " does not exist."))
  | Some c => lift (outcome (nearest env (coll_entries c) v n))
  end.

(** *** The answer generator *)

(** The body of the [try] of [call_lm_studio]. *)
Definition lm_studio_request (prompt context : string) : M JSON :=
  log (Post LM_STUDIO_URL 30 (completion_body prompt context));;
  response ← lift (outcome (http_post env LM_STUDIO_URL 30
                             (completion_body prompt context)));
  raise_for_status response;;
  result ← lift (outcome (json response));
  lift (completion_content result).

Definition call_lm_studio (prompt context : string) : M JSON :=
  try_except (lm_studio_request prompt context)
    (λ e, mthrow (HTTPException 500 ("LM Studio error: " ++ str_exn e))).

(** *** [POST /upload_expenses] *)

Definition missing_columns (df : DataFrame) : list string :=
  filter (λ col, col ∉ columns df) required_columns.

(** The body of the [try] of [upload_expenses]. *)
Definition upload_steps (f : UploadFile) (user_id : string)
    : M (gmap string string) :=
  log (ReadExcel (file f));;
  df ← lift (outcome (read_excel env (file f)));
  match missing_columns df with
  | _ :: _ =>
      mthrow (HTTPException 400
                ("Missing required columns: "
                   ++ PyStr.repr_list (missing_columns df)))
  | [] =>
      chunks ← lift (process_excel_data df);
      try_except (delete_collection (collection_name user_id)) (λ _, mret tt);;
      collection ← create_collection (collection_name user_id)
                     {[ "user_id" := user_id ]};
      let texts := text <$> chunks in
      let metadatas := metadata <$> chunks in
      let ids := (λ i : nat, user_id ++ "_" ++ pretty i) <$> seq 0 (length chunks) in
      embeddings_list ← lift (outcome (embed_documents env texts));
      collection_add collection texts embeddings_list metadatas ids;;
      mret {[ "status" := "success";
              "message" := "Uploaded " ++ pretty (length (rows df))
                             ++ " transactions, created "
                             ++ pretty (length chunks) ++ " chunks";
              "user_id" := user_id ]}
  end.

Definition upload_expenses (f : UploadFile) (user_id : string)
    : M (gmap string string) :=
  if negb (PyStr.endswith_any (filename f) [".xlsx"; ".xls"])
  then mthrow (HTTPException 400 "Only Excel files are supported")
  else
    try_except (upload_steps f user_id)
      (λ e, mthrow (HTTPException 500 (str_exn e))).

(** *** [POST /chat] *)

(** [ChatResponse(answer=, sources=)]: the response model accepts a
    string as answer and refuses any other value. *)
Definition chat_response (answer : JSON) (sources : list string)
    : M ChatResponse :=
  match answer with
  | JStr s => mret {| answer := s; sources := sources |}
  | _ => mthrow (Error "1 validation error for ChatResponse")
  end.

(** The body of the outer [try] of [chat]. *)
Definition chat_steps (request : ChatRequest) : M ChatResponse :=
  collection ←
    try_except (get_collection (collection_name (user_id request)))
      (λ _, mthrow (HTTPException 404
                      "No expense data found. Please upload an Excel file first."));
  query_embedding ← lift (outcome (embed_query env (question request)));
  results ← collection_query collection query_embedding 5;
  let context := PyStr.join (PyStr.nl ++ PyStr.nl) (e_document <$> results) in
  let sources :=
    (λ meta : gmap string string, default "unknown" (meta !! "type"))
      <$> (e_metadata <$> results) in
  answer ← call_lm_studio (question request) context;
  chat_response answer sources.

(** [except HTTPException: raise] comes before [except Exception]. *)
Definition chat (request : ChatRequest) : M ChatResponse :=
  try_except (chat_steps request)
    (λ e, match e with
          | HTTPException _ _ => mthrow e
          | Error _ => mthrow (HTTPException 500 (str_exn e))
          end).

(** *** [GET /health] *)

Definition health_probe_url : string := "http://10.0.85.2:1234/v1/models".

Definition health_check : M HealthResponse :=
  lm_studio_status ←
    try_except
      (log (Get health_probe_url 5);;
       response ← lift (outcome (http_get env health_probe_url 5));
       mret (status_code response =? 200)%nat)
      (λ _, mret false);
  mret {| status := "healthy"; lm_studio_connected := lm_studio_status |}.

End Service.

(** The status of the HTTP response that FastAPI sends for the outcome of
    an endpoint. *)
Definition http_status {A} (r : exn + A) : nat :=
  match r with
  | inr _ => 200
  | inl (HTTPException code _) => code
  | inl (Error _) => 500
  end.

(** The model-listing route of the server behind a completion URL: the
    route [/models] beside [/chat/completions]. *)
Definition models_route (completions_url : string) : string :=
  String.substring 0
    (String.length completions_url - String.length "/chat/completions")
    completions_url ++ "/models".

(** ** Stated properties and concrete inputs *)

Definition prices_total (df : list Transaction) : Q := Amount.total (price <$> df).



Definition small_purchase (m : nat) : Transaction :=
  {| name := "Gum"; price := 4 # 1000; category := "Food";
     date := {| year := 2024; month := m; day := 1 |} |}.

Definition five_small : list Transaction := small_purchase <$> [1; 2; 3; 4; 5]%nat.



(** The two transactions of the scenario of the specification. *)
Definition coffee : Transaction :=
  {| name := "Coffee"; price := 9 # 2; category := "Food";
     date := {| year := 2024; month := 1; day := 5 |} |}.

Definition rent : Transaction :=
  {| name := "Rent"; price := 1200; category := "Housing";
     date := {| year := 2024; month := 1; day := 1 |} |}.

Definition two_transactions : DataFrame :=
  frame_of required_columns [coffee; rent].

(** A sheet without the [category] column. *)
Definition no_category_sheet : DataFrame :=
  {| columns := ["name"; "price"; "date"]; rows := [] |}.

(** A sheet whose second row holds a date that pandas cannot read. *)
Definition bad_date_sheet : DataFrame :=
  {| columns := required_columns;
     rows := [ {| name := "Coffee"; price := 9 # 2; category := "Food";
                  date := Timestamp {| year := 2024; month := 1; day := 5 |} |};
               {| name := "Rent"; price := 1200; category := "Housing";
                  date := Unparsable "soon" |} ] |}.

Definition unit_embeddings (texts : list string) : Outcome (list Vector) :=
  inr ((λ _, [1%Q]) <$> texts).

Definition embeddings_down (texts : list string) : Outcome (list Vector) :=
  inl "embedding model not loaded".

Definition completion_ok : Response :=
  {| status_code := 200;
     status_error := "";
     json := inr (JObj [("choices",
                         JArr [JObj [("message",
                                      JObj [("role", JStr "assistant");
                                            ("content", JStr "You spent $1204.50.")])]])]) |}.

Definition models_ok : Response :=
  {| status_code := 200; status_error := ""; json := inr (JObj [("data", JArr [])]) |}.

(** A world in which the sheet reads as [sheet], the embedding model
    answers as [embed], Chroma accepts every name and batch and ranks by
    position, the completion endpoint answers, and the only host that
    answers a [GET] is the one of [LM_STUDIO_URL]. *)
Definition demo_env (sheet : Outcome DataFrame)
    (embed : list string → Outcome (list Vector)) : Env :=
  {| read_excel := λ _, sheet;
     embed_documents := embed;
     embed_query := λ _, inr [1%Q];
     create_error := λ _, None;
     add_error := λ _, None;
     nearest := λ entries _ n, inr (take n entries);
     http_post := λ _ _ _, inr completion_ok;
     http_get := λ url _,
       if String.eqb url (models_route LM_STUDIO_URL) then inr models_ok
       else inl "All connection attempts failed" |}.

(** A world in which the completion endpoint cannot be reached. *)
Definition offline_env : Env :=
  {| read_excel := λ _, inr two_transactions;
     embed_documents := unit_embeddings;
     embed_query := λ _, inr [1%Q];
     create_error := λ _, None;
     add_error := λ _, None;
     nearest := λ entries _ n, inr (take n entries);
     http_post := λ _ _ _, inl "All connection attempts failed";
     http_get := λ _ _, inl "All connection attempts failed" |}.

Definition fresh_world : World := {| store := ∅; calls := [] |}.

Definition sheet_xlsx : UploadFile := {| filename := "expenses.xlsx"; file := "PK" |}.

Definition sheet_csv : UploadFile := {| filename := "expenses.csv"; file := "a,b" |}.

(** The world after a first upload of the scenario's sheet by [user-1]. *)
Definition uploaded_world : World :=
  (upload_expenses (demo_env (inr two_transactions) unit_embeddings)
     sheet_xlsx "user-1" fresh_world).2.


(** ** Shorthands for the runs of the service *)

Ltac unfold_M :=
  unfold mbind, M_bind, mret, M_ret, mthrow, M_throw, try_except, lift, log,
    get_store, put_store in *.

(** The world after the sheet was read and the store was set to [s]. *)
Definition after_read (f : UploadFile) (w : World)
    (s : gmap string Collection) : World :=
  {| store := s; calls := (calls w ++ [ReadExcel (file f)])%list |}.

Definition new_collection (user_id : string) (entries : list Entry) : Collection :=
  {| coll_metadata := {[ "user_id" := user_id ]}; coll_entries := entries |}.

Definition chunk_ids (user_id : string) (chunks : list Chunk) : list string :=
  (λ i : nat, user_id ++ "_" ++ pretty i) <$> seq 0 (length chunks).

Definition upload_message (df : DataFrame) (chunks : list Chunk) (user_id : string)
    : gmap string string :=
  {[ "status" := "success";
     "message" := "Uploaded " ++ pretty (length (rows df))
                    ++ " transactions, created "
                    ++ pretty (length chunks) ++ " chunks";
     "user_id" := user_id ]}.


(** The world after a second upload by [user-1] during which the embedding
    model fails. *)
Definition embedding_failure_world : World :=
  (upload_expenses (demo_env (inr two_transactions) embeddings_down)
     sheet_xlsx "user-1" uploaded_world).2.

(** The reading of "a failed upload has deleted the user's collection"
    that counts the chunk builder among the steps after validation: whenever
    the extension and the columns are accepted and the upload raises, the
    status is 500 and a collection that held entries before is no longer
    stored under the user's name. *)
Definition failed_upload_drops_collection : Prop :=
  ∀ (env : Env) (f : UploadFile) (user_id : string) (w w' : World)
    (df : DataFrame) (e : exn) (c : Collection),
    PyStr.endswith_any (filename f) [".xlsx"; ".xls"] = true →
    read_excel env (file f) = inr df →
    missing_columns df = [] →
    upload_expenses env f user_id w = (inl e, w') →
    store w !! collection_name user_id = Some c →
    coll_entries c ≠ [] →
    http_status (@inl exn (gmap string string) e) = 500%nat
    ∧ store w' !! collection_name user_id ≠ Some c.

(** What the completion endpoint makes of one request: the content of the
    first choice, or the cause of the failure (no answer, a status that is
    no success, a body that is no JSON or lacks the completion field). *)
Definition completion_outcome (env : Env) (prompt context : string) : exn + JSON :=
  match http_post env LM_STUDIO_URL 30 (completion_body prompt context) with
  | inl cause => inl (Error cause)
  | inr response =>
      if ((200 <=? status_code response) && (status_code response <? 300))%nat
      then
        match json response with
        | inl cause => inl (Error cause)
        | inr result => completion_content result
        end
      else inl (Error (status_error response))
  end.

(** The world after one more outbound call. *)
Definition after_call (w : World) (c : Call) : World :=
  {| store := store w; calls := (calls w ++ [c])%list |}.

Definition no_data_detail : string :=
  "No expense data found. Please upload an Excel file first.".

Definition how_much : ChatRequest :=
  {| question := "How much did I spend in January?"; user_id := "user-1" |}.

(** ** Orders and tags used by the further properties *)




(** A world in which the completion endpoint answers every request with
    the given outcome. *)
Definition post_env (answer : Outcome Response) : Env :=
  {| read_excel := λ _, inr two_transactions;
     embed_documents := unit_embeddings;
     embed_query := λ _, inr [1%Q];
     create_error := λ _, None;
     add_error := λ _, None;
     nearest := λ entries _ n, inr (take n entries);
     http_post := λ _ _ _, answer;
     http_get := λ _ _, inl "All connection attempts failed" |}.

(** A 503 answer that carries a completion all the same. *)
Definition busy_response : Response :=
  {| status_code := 503;
     status_error := "Server error '503 Service Unavailable'";
     json := json completion_ok |}.

(** A 200 answer whose body reports an error instead of choices. *)
Definition error_body_response : Response :=
  {| status_code := 200;
     status_error := "";
     json := inr (JObj [("error", JStr "model not loaded")]) |}.

(** [c in s] for a character [c]. *)
Fixpoint str_contains (c : ascii) (s : string) : bool :=
  match s with
  | EmptyString => false
  | String c' s' => Ascii.eqb c' c || str_contains c s'
  end.

(** * Properties *)

(** ** The scenario of the specification *)

Example fmt2_scenario : Amount.fmt2 (2409 # 2) = "1204.50".
Proof. reflexivity. Qed.

Example fmt2_small_negative : Amount.fmt2 (-1 # 1000) = "-0.00".
Proof. reflexivity. Qed.

Example fmt2_tie_to_even : Amount.fmt2 (1 # 8) = "0.12".
Proof. reflexivity. Qed.

Example dumps_str_escapes :
  PyJson.dumps_str (String "195" (String "169" "t" ++ PyStr.dquote))
  = PyStr.dquote ++ PyStr.backslash ++ "u00e9t" ++ PyStr.backslash
      ++ PyStr.dquote ++ PyStr.dquote.
Proof. reflexivity. Qed.

(** Coffee and rent: one monthly chunk for January 2024 with total 1204.50
    and count 2, then two category chunks and two transaction chunks. *)
Example scenario_chunks :
  text <$> build_chunks [coffee; rent]
  = [ "Month: 2024-01" ++ PyStr.nl
        ++ "        Total expenses: $1204.50" ++ PyStr.nl
        ++ "        Number of transactions: 2" ++ PyStr.nl
        ++ "        Categories: {" ++ PyStr.nl
        ++ "  " ++ PyStr.dquote ++ "Food" ++ PyStr.dquote ++ ": 1," ++ PyStr.nl
        ++ "  " ++ PyStr.dquote ++ "Housing" ++ PyStr.dquote ++ ": 1" ++ PyStr.nl
        ++ "}";
      "Category: Food" ++ PyStr.nl ++ "Total spent: $4.50" ++ PyStr.nl
        ++ "Average transaction: $4.50" ++ PyStr.nl
        ++ "Number of transactions: 1";
      "Category: Housing" ++ PyStr.nl ++ "Total spent: $1200.00" ++ PyStr.nl
        ++ "Average transaction: $1200.00" ++ PyStr.nl
        ++ "Number of transactions: 1";
      "Transaction on 2024-01-05" ++ PyStr.nl ++ "Name: Coffee" ++ PyStr.nl
        ++ "Category: Food" ++ PyStr.nl ++ "Amount: $4.50";
      "Transaction on 2024-01-01" ++ PyStr.nl ++ "Name: Rent" ++ PyStr.nl
        ++ "Category: Housing" ++ PyStr.nl ++ "Amount: $1200.00" ].
Proof. vm_compute. reflexivity. Qed.

Example scenario_kinds :
  (λ c : Chunk, default "unknown" (metadata c !! "type"))
    <$> build_chunks [coffee; rent]
  = ["monthly_summary"; "category_summary"; "category_summary";
     "transaction"; "transaction"].
Proof. vm_compute. reflexivity. Qed.

Example scenario_upload :
  (upload_expenses (demo_env (inr two_transactions) unit_embeddings)
     sheet_xlsx "user-1" fresh_world).1
  = inr {[ "status" := "success";
           "message" := "Uploaded 2 transactions, created 5 chunks";
           "user_id" := "user-1" ]}.
Proof. vm_compute. reflexivity. Qed.

(** The five small purchases as the chunks show them. *)
Example five_small_reported :
  Amount.fmt2 <$> (m_sum <$> monthly_summary five_small)
  = ["0.00"; "0.00"; "0.00"; "0.00"; "0.00"]
  ∧ Amount.fmt2 <$> (c_sum <$> category_summary five_small) = ["0.02"]
  ∧ Amount.fmt2 (prices_total five_small) = "0.02".
Proof. vm_compute. repeat split; reflexivity. Qed.

(** ** The chunk builder: how many chunks *)

Section Unique.
Context {A : Type} `{EqDecision A}.


End Unique.











(** ** The chunk builder: totals *)




Section GroupTotals.
Context {K : Type} `{EqDecision K} (key : Transaction → K).





End GroupTotals.










(** ** Running the service *)

Section Upload.
Variable env : Env.

Lemma delete_collection_swallowed (name : string) (w : World) :
  try_except (delete_collection name) (λ _, mret tt) w
  = (inr tt, {| store := delete name (store w); calls := calls w |}).
Proof.
  unfold delete_collection. unfold_M.
  destruct (store w !! name) eqn:Hs; simpl; [done|].
  rewrite delete_id by done. by destruct w.
Qed.

Lemma upload_steps_missing (f : UploadFile) (user_id : string) (w : World)
    (df : DataFrame) :
  read_excel env (file f) = inr df → missing_columns df ≠ [] →
  upload_steps env f user_id w
  = (inl (HTTPException 400 ("Missing required columns: "
                               ++ PyStr.repr_list (missing_columns df))),
     after_read f w (store w)).
Proof.
  intros Hread Hmiss. unfold upload_steps. unfold_M. simpl. rewrite Hread.
  cbn [outcome].
  by destruct (missing_columns df).
Qed.

Lemma upload_steps_unreadable (f : UploadFile) (user_id : string) (w : World)
    (e : string) :
  read_excel env (file f) = inl e →
  upload_steps env f user_id w = (inl (Error e), after_read f w (store w)).
Proof.
  intros Hread. unfold upload_steps. unfold_M. simpl. by rewrite Hread.
Qed.

Lemma upload_steps_unprocessed (f : UploadFile) (user_id : string) (w : World)
    (df : DataFrame) (e : exn) :
  read_excel env (file f) = inr df → missing_columns df = [] →
  process_excel_data df = inl e →
  upload_steps env f user_id w = (inl e, after_read f w (store w)).
Proof.
  intros Hread Hmiss Hproc. unfold upload_steps. unfold_M. simpl.
  rewrite Hread. cbn [outcome]. by rewrite Hmiss, Hproc.
Qed.

(** Once the chunks are built, the old collection is deleted and the
    outcome depends on the three remaining steps. *)
Lemma upload_steps_processed (f : UploadFile) (user_id : string) (w : World)
    (df : DataFrame) (chunks : list Chunk) :
  read_excel env (file f) = inr df → missing_columns df = [] →
  process_excel_data df = inr chunks →
  let name := collection_name user_id in
  let cleared := delete name (store w) in
  let created := <[name := new_collection user_id []]> (store w) in
  upload_steps env f user_id w
  = match create_error env name with
    | Some e => (inl (Error e), after_read f w cleared)
    | None =>
        match embed_documents env (text <$> chunks) with
        | inl e => (inl (Error e), after_read f w created)
        | inr vectors =>
            if negb ((length (text <$> chunks) =? length (chunk_ids user_id chunks))%nat
                     && (length vectors =? length (chunk_ids user_id chunks))%nat
                     && (length (metadata <$> chunks)
                         =? length (chunk_ids user_id chunks))%nat)
            then (inl (Error "Unequal lengths for fields of the batch"),
                  after_read f w created)
            else
              let entries := batch (chunk_ids user_id chunks) (text <$> chunks)
                               vectors (metadata <$> chunks) in
              match add_error env entries with
              | Some e => (inl (Error e), after_read f w created)
              | None =>
                  (inr (upload_message df chunks user_id),
                   after_read f w
                     (<[name := new_collection user_id entries]> (store w)))
              end
        end
    end.
Proof.
  intros Hread Hmiss Hproc name cleared created.
  unfold upload_steps.
  unfold mbind at 1, M_bind at 1. unfold log at 1.
  unfold mbind at 1, M_bind at 1. unfold lift at 1. rewrite Hread.
  cbn [outcome]. rewrite Hmiss.
  unfold mbind at 1, M_bind at 1. unfold lift at 1. rewrite Hproc.
  unfold mbind at 1, M_bind at 1. rewrite delete_collection_swallowed.
  cbn [store calls]. fold name. fold cleared.
  unfold create_collection, collection_add. unfold_M. cbn [store calls].
  fold (chunk_ids user_id chunks).
  destruct (create_error env name); [done|].
  cbn [store calls]. subst cleared. rewrite lookup_delete_eq, insert_delete_eq.
  fold (new_collection user_id []). fold created.
  destruct (embed_documents env (text <$> chunks)) as [e|vectors];
    cbn [outcome]; [done|].
  destruct (negb _); [done|].
  destruct (add_error env _); [done|]. cbn [store calls].
  subst created. rewrite lookup_insert_eq, insert_insert_eq. done.
Qed.

End Upload.

Section UploadOutcome.
Variable env : Env.

Lemma upload_expenses_run (f : UploadFile) (user_id : string) (w : World) :
  PyStr.endswith_any (filename f) [".xlsx"; ".xls"] = true →
  upload_expenses env f user_id w
  = match upload_steps env f user_id w with
    | (inl e, w') => (inl (HTTPException 500 (str_exn e)), w')
    | (inr x, w') => (inr x, w')
    end.
Proof. intros Hext. unfold upload_expenses. by rewrite Hext. Qed.




End UploadOutcome.

(** ** Strings *)

Lemma append_cons (c : ascii) (s t : string) :
  String c s ++ t = String c (s ++ t).
Proof. reflexivity. Qed.

Lemma length_append (p s : string) :
  String.length (p ++ s) = (String.length p + String.length s)%nat.
Proof. induction p as [|c p IH]; simpl; [done|]. by rewrite IH. Qed.

Lemma substring_all (s : string) : String.substring 0 (String.length s) s = s.
Proof. induction s as [|c s IH]; simpl; [done|]. by rewrite IH. Qed.

Lemma substring_append_r (p suffix : string) :
  String.substring (String.length p) (String.length suffix) (p ++ suffix) = suffix.
Proof. induction p as [|c p IH]; simpl; [apply substring_all|done]. Qed.

Lemma substring_split (s : string) (n : nat) :
  (n ≤ String.length s)%nat →
  String.substring 0 n s ++ String.substring n (String.length s - n) s = s.
Proof.
  revert n. induction s as [|c s IH]; intros [|n] Hn; simpl in *; try lia.
  - done.
  - by rewrite substring_all.
  - rewrite append_cons. f_equal. apply IH. lia.
Qed.

(** [endswith] holds exactly of the strings that are a stem followed by
    the suffix. *)
Lemma endswith_iff (s suffix : string) :
  PyStr.endswith s suffix = true ↔ ∃ stem, s = stem ++ suffix.
Proof.
  unfold PyStr.endswith. rewrite andb_true_iff, Nat.leb_le, String.eqb_eq.
  split.
  - intros [Hle Hsub].
    exists (String.substring 0 (String.length s - String.length suffix) s).
    pose proof (substring_split s (String.length s - String.length suffix)
                  ltac:(lia)) as Hsplit.
    replace (String.length s - (String.length s - String.length suffix))%nat
      with (String.length suffix) in Hsplit by lia.
    by rewrite Hsub in Hsplit.
  - intros [stem ->]. rewrite length_append. split; [lia|].
    replace (String.length stem + String.length suffix - String.length suffix)%nat
      with (String.length stem) by lia.
    apply substring_append_r.
Qed.

Lemma endswith_false (s suffix : string) :
  PyStr.endswith s suffix = false ↔ ∀ stem, s ≠ stem ++ suffix.
Proof.
  rewrite <- not_true_iff_false, endswith_iff. naive_solver.
Qed.

(** ** Upload: validation *)

(** C9. A file whose name ends neither in [.xlsx] nor in [.xls] is refused
    with status 400 and the detail for unsupported files; the world is left
    as it was, so the payload is not read and the store is not touched. *)
Theorem upload_rejects_other_extensions (env : Env) (f : UploadFile)
    (user_id : string) (w : World) :
  (∀ stem, filename f ≠ stem ++ ".xlsx") →
  (∀ stem, filename f ≠ stem ++ ".xls") →
  upload_expenses env f user_id w
  = (inl (HTTPException 400 "Only Excel files are supported"), w)
  ∧ http_status (upload_expenses env f user_id w).1 = 400%nat.
Proof.
  intros Hx Hs. apply endswith_false in Hx, Hs.
  unfold upload_expenses, PyStr.endswith_any. cbn [existsb].
  by rewrite Hx, Hs.
Qed.

Lemma upload_rejects_other_extensions_witness :
  upload_expenses (demo_env (inr two_transactions) unit_embeddings)
    sheet_csv "user-1" uploaded_world
  = (inl (HTTPException 400 "Only Excel files are supported"), uploaded_world)
  ∧ http_status
      (upload_expenses (demo_env (inr two_transactions) unit_embeddings)
         sheet_csv "user-1" uploaded_world).1 = 400%nat.
Proof.
  apply (upload_rejects_other_extensions
           (demo_env (inr two_transactions) unit_embeddings) sheet_csv
           "user-1" uploaded_world);
    apply endswith_false; reflexivity.
Defined.

(** The validation error for missing columns is raised inside the [try]
    and caught by its [except Exception]. *)
Lemma upload_missing_columns_500 (env : Env) (f : UploadFile)
    (user_id : string) (w : World) (df : DataFrame) :
  PyStr.endswith_any (filename f) [".xlsx"; ".xls"] = true →
  read_excel env (file f) = inr df → missing_columns df ≠ [] →
  upload_expenses env f user_id w
  = (inl (HTTPException 500
            ("400: Missing required columns: "
               ++ PyStr.repr_list (missing_columns df))),
     after_read f w (store w)).
Proof.
  intros Hext Hread Hmiss. rewrite upload_expenses_run by done.
  by rewrite (upload_steps_missing _ _ _ _ df).
Qed.

(** C3. The sheet without a [category] column, uploaded under a recognised
    extension: the response has status 500, not 400; its detail is the text
    of the caught 400 error, which names the column. *)
Theorem upload_without_category_is_500 :
  upload_expenses (demo_env (inr no_category_sheet) unit_embeddings)
    sheet_xlsx "user-1" fresh_world
  = (inl (HTTPException 500 "400: Missing required columns: ['category']"),
     {| store := ∅; calls := [ReadExcel "PK"] |})
  ∧ http_status
      (upload_expenses (demo_env (inr no_category_sheet) unit_embeddings)
         sheet_xlsx "user-1" fresh_world).1 = 500%nat.
Proof.
  rewrite (upload_missing_columns_500 _ _ _ _ no_category_sheet);
    [split; reflexivity|reflexivity|reflexivity|].
  vm_compute. discriminate.
Qed.

(** ** Upload: the collection of a user *)



(** ** Upload: failures after validation *)

(** C10. When the extension and the columns are accepted and the upload
    still raises, the response has status 500 and carries the text of the
    cause.  If the chunk builder raised, the store is as it was: the old
    collection is still there.  If a later step raised (creating the
    collection, embedding, adding the batch), the old collection is gone:
    under the user's name there is no collection or a new, empty one, and
    no other collection has changed. *)
Theorem upload_failure_after_validation (env : Env) (f : UploadFile)
    (user_id : string) (w w' : World) (df : DataFrame) (e : exn) :
  PyStr.endswith_any (filename f) [".xlsx"; ".xls"] = true →
  read_excel env (file f) = inr df →
  missing_columns df = [] →
  upload_expenses env f user_id w = (inl e, w') →
  (∃ cause, e = HTTPException 500 (str_exn cause))
  ∧ http_status (upload_expenses env f user_id w).1 = 500%nat
  ∧ match process_excel_data df with
    | inl _ => store w' = store w
    | inr _ =>
        (store w' !! collection_name user_id = None
         ∨ store w' !! collection_name user_id = Some (new_collection user_id []))
        ∧ delete (collection_name user_id) (store w')
          = delete (collection_name user_id) (store w)
    end.
Proof.
  intros Hext Hread Hmiss Hup.
  rewrite Hup. rewrite upload_expenses_run in Hup by done.
  destruct (process_excel_data df) as [e0|chunks] eqn:Hproc.
  - rewrite (upload_steps_unprocessed _ _ _ _ df e0) in Hup by done.
    injection Hup as <- <-. eauto.
  - rewrite (upload_steps_processed _ _ _ _ df chunks) in Hup by done.
    cbv zeta in Hup.
    destruct (create_error env (collection_name user_id)) as [e0|].
    { injection Hup as <- <-. cbn [after_read store].
      rewrite lookup_delete_eq, delete_delete_eq.
      split; [by exists (Error e0)|eauto]. }
    assert (∀ e0,
      (@inl exn (gmap string string) (HTTPException 500 (str_exn e0)),
       after_read f w (<[collection_name user_id := new_collection user_id []]>
                         (store w)))
      = (inl e, w') →
      (∃ cause, e = HTTPException 500 (str_exn cause))
      ∧ http_status (@inl exn (gmap string string) e) = 500%nat
      ∧ (store w' !! collection_name user_id = None
         ∨ store w' !! collection_name user_id
           = Some (new_collection user_id []))
        ∧ delete (collection_name user_id) (store w')
          = delete (collection_name user_id) (store w)) as Hcreated.
    { intros e0 Heq. injection Heq as <- <-. cbn [after_read store].
      rewrite lookup_insert_eq, delete_insert_eq. eauto 10. }
    destruct (embed_documents env (text <$> chunks)) as [e0|vectors];
      [by apply (Hcreated (Error e0))|].
    destruct (negb _); [by eapply Hcreated|].
    destruct (add_error env _) as [e0|]; [by apply (Hcreated (Error e0))|done].
Qed.

Lemma upload_failure_after_validation_witness :
  (∃ cause,
     HTTPException 500 "embedding model not loaded"
     = HTTPException 500 (str_exn cause))
  ∧ http_status
      (upload_expenses (demo_env (inr two_transactions) embeddings_down)
         sheet_xlsx "user-1" uploaded_world).1 = 500%nat
  ∧ (store embedding_failure_world !! collection_name "user-1" = None
     ∨ store embedding_failure_world !! collection_name "user-1"
       = Some (new_collection "user-1" []))
    ∧ delete (collection_name "user-1") (store embedding_failure_world)
      = delete (collection_name "user-1") (store uploaded_world).
Proof.
  apply (upload_failure_after_validation
           (demo_env (inr two_transactions) embeddings_down) sheet_xlsx
           "user-1" uploaded_world embedding_failure_world two_transactions
           (HTTPException 500 "embedding model not loaded"));
    vm_compute; reflexivity.
Defined.

(** The sheet with an unreadable date passes validation, the chunk builder
    raises, the response has status 500, and the five entries of the
    earlier upload are still in the store. *)
Lemma bad_date_upload_run :
  PyStr.endswith_any (filename sheet_xlsx) [".xlsx"; ".xls"] = true
  ∧ missing_columns bad_date_sheet = []
  ∧ process_excel_data bad_date_sheet
    = inl (Error "Unknown datetime string format, unable to parse: soon, at position 1")
  ∧ upload_expenses (demo_env (inr bad_date_sheet) unit_embeddings)
      sheet_xlsx "user-1" uploaded_world
    = (inl (HTTPException 500
              "Unknown datetime string format, unable to parse: soon, at position 1"),
       after_read sheet_xlsx uploaded_world (store uploaded_world))
  ∧ length <$> (coll_entries <$> store uploaded_world !! collection_name "user-1")
    = Some 5%nat.
Proof. vm_compute. repeat split; reflexivity. Qed.

(** C10 as stated fails: with the unreadable date the upload raises after
    validation and the earlier collection is still stored. *)
Lemma bad_date_upload_keeps_collection : ¬ failed_upload_drops_collection.
Proof.
  intros Hclaim.
  destruct bad_date_upload_run as (Hext & Hmiss & _ & Hup & Hlen).
  destruct (store uploaded_world !! collection_name "user-1") as [c|] eqn:Hc;
    [|discriminate].
  destruct (Hclaim (demo_env (inr bad_date_sheet) unit_embeddings) sheet_xlsx
              "user-1" uploaded_world _ bad_date_sheet _ c Hext eq_refl Hmiss
              Hup Hc) as [_ Hgone].
  - intros Hnil. cbn in Hlen. rewrite Hnil in Hlen. discriminate.
  - apply Hgone. exact Hc.
Qed.

(** ** The answer generator and the chat endpoint *)

Section Chat.
Variable env : Env.

Lemma call_lm_studio_run (prompt context : string) (w : World) :
  call_lm_studio env prompt context w
  = (match completion_outcome env prompt context with
     | inl cause => inl (HTTPException 500 ("LM Studio error: " ++ str_exn cause))
     | inr v => inr v
     end,
     after_call w (Post LM_STUDIO_URL 30 (completion_body prompt context))).
Proof.
  unfold call_lm_studio, lm_studio_request, completion_outcome, raise_for_status.
  unfold_M. unfold after_call. cbn [fst snd].
  destruct (http_post env _ _ _) as [e|response]; cbn [outcome]; [reflexivity|].
  destruct (_ && _); [|reflexivity].
  destruct (json response) as [e|result]; cbn [outcome]; [reflexivity|].
  by destruct (completion_content result).
Qed.

Lemma chat_not_found (request : ChatRequest) (w : World) :
  store w !! collection_name (user_id request) = None →
  chat env request w = (inl (HTTPException 404 no_data_detail), w).
Proof.
  intros Hnone. unfold chat, chat_steps, get_collection. unfold_M.
  by rewrite Hnone.
Qed.

(** The run of [chat] once the collection is found. *)
Lemma chat_found (request : ChatRequest) (w : World) (c : Collection) :
  store w !! collection_name (user_id request) = Some c →
  chat env request w
  = match embed_query env (question request) with
    | inl cause => (inl (HTTPException 500 cause), w)
    | inr v =>
        match nearest env (coll_entries c) v 5 with
        | inl cause => (inl (HTTPException 500 cause), w)
        | inr results =>
            let context :=
              PyStr.join (PyStr.nl ++ PyStr.nl) (e_document <$> results) in
            (match completion_outcome env (question request) context with
             | inl cause =>
                 inl (HTTPException 500 ("LM Studio error: " ++ str_exn cause))
             | inr (JStr s) =>
                 inr {| answer := s;
                        sources :=
                          (λ meta : gmap string string,
                             default "unknown" (meta !! "type"))
                            <$> (e_metadata <$> results) |}
             | inr _ => inl (HTTPException 500 "1 validation error for ChatResponse")
             end,
             after_call w
               (Post LM_STUDIO_URL 30
                  (completion_body (question request) context)))
        end
    end.
Proof.
  intros Hsome. unfold chat, chat_steps.
  unfold try_except at 1. unfold mbind at 1, M_bind at 1.
  unfold get_collection, collection_query. unfold_M. rewrite Hsome.
  destruct (embed_query env (question request)) as [e|v]; cbn [outcome];
    [reflexivity|].
  rewrite Hsome.
  destruct (nearest env (coll_entries c) v 5) as [e|results]; cbn [outcome];
    [reflexivity|].
  cbv zeta. rewrite call_lm_studio_run.
  destruct (completion_outcome env _ _) as [cause|[]]; reflexivity.
Qed.

End Chat.


(** C5. A chat request of a user without a collection in the store is
    answered with status 404 and the advice to upload first; the error is
    raised again as it is, and the world is left as it was. *)
Theorem chat_without_collection_404 (env : Env) (request : ChatRequest)
    (w : World) :
  store w !! collection_name (user_id request) = None →
  chat env request w
  = (inl (HTTPException 404
            "No expense data found. Please upload an Excel file first."), w)
  ∧ http_status (chat env request w).1 = 404%nat.
Proof.
  intros Hnone. rewrite (chat_not_found env request w Hnone). done.
Qed.

Lemma chat_without_collection_404_witness :
  chat (demo_env (inr two_transactions) unit_embeddings) how_much fresh_world
  = (inl (HTTPException 404
            "No expense data found. Please upload an Excel file first."),
     fresh_world)
  ∧ http_status
      (chat (demo_env (inr two_transactions) unit_embeddings) how_much
         fresh_world).1 = 404%nat.
Proof.
  apply (chat_without_collection_404
           (demo_env (inr two_transactions) unit_embeddings) how_much
           fresh_world).
  reflexivity.
Defined.


(** The collision at work: after [user-1] has uploaded, a chat request of
    [user_1] is answered from the data of [user-1]. *)
Example chat_of_colliding_user :
  (chat (demo_env (inr two_transactions) unit_embeddings)
     {| question := "How much did I spend in January?"; user_id := "user_1" |}
     uploaded_world).1
  = inr {| answer := "You spent $1204.50.";
           sources := ["monthly_summary"; "category_summary"; "category_summary";
                       "transaction"; "transaction"] |}.
Proof. vm_compute. reflexivity. Qed.


(** With the endpoint unreachable the one request fails and is not tried
    again. *)
Example offline_completion_fails :
  call_lm_studio offline_env "How much?" "Month: 2024-01" fresh_world
  = (inl (HTTPException 500 "LM Studio error: All connection attempts failed"),
     {| store := ∅;
        calls := [Post LM_STUDIO_URL 30
                    (completion_body "How much?" "Month: 2024-01")] |}).
Proof. reflexivity. Qed.

(** ** The health endpoint *)

(** The health endpoint never raises: whatever the probe does, the answer
    is the dictionary with status [healthy] and a boolean, and the only
    call is one GET of the probe address with a time-out of 5 seconds. *)
Lemma health_check_total (env : Env) (w : World) :
  health_check env w
  = (inr {| status := "healthy";
            lm_studio_connected :=
              match http_get env "http://10.0.85.2:1234/v1/models" 5 with
              | inl _ => false
              | inr response => (status_code response =? 200)%nat
              end |},
     after_call w (Get "http://10.0.85.2:1234/v1/models" 5))
  ∧ http_status (health_check env w).1 = 200%nat.
Proof.
  unfold health_check. unfold_M. unfold after_call, health_probe_url.
  by destruct (http_get env _ _).
Qed.

(** C6. The address that the health endpoint probes is not the
    model-listing route of the configured completion endpoint: with the
    server of [LM_STUDIO_URL] up and answering 200 on its model-listing
    route, the health endpoint probes another host and reports that the
    language model is not connected. *)
Theorem health_check_probes_other_host :
  models_route LM_STUDIO_URL = "http://localhost:1234/v1/models"
  ∧ health_probe_url ≠ models_route LM_STUDIO_URL
  ∧ http_get (demo_env (inr two_transactions) unit_embeddings)
      (models_route LM_STUDIO_URL) 5 = inr models_ok
  ∧ status_code models_ok = 200%nat
  ∧ health_check (demo_env (inr two_transactions) unit_embeddings) fresh_world
    = (inr {| status := "healthy"; lm_studio_connected := false |},
       {| store := ∅; calls := [Get "http://10.0.85.2:1234/v1/models" 5] |}).
Proof. split_and!; try reflexivity. discriminate. Qed.

(** * Further properties of the chunk builder *)

Section GroupCounts.
Context {A K : Type} `{EqDecision K} (key : A → K).








End GroupCounts.




















(** * Further properties of the endpoints *)





Lemma accepted_extension_iff (name : string) :
  PyStr.endswith_any name [".xlsx"; ".xls"] = true
  ↔ ∃ stem, name = stem ++ ".xlsx" ∨ name = stem ++ ".xls".
Proof.
  unfold PyStr.endswith_any. cbn [existsb].
  rewrite orb_false_r, orb_true_iff, !endswith_iff. naive_solver.
Qed.

(** X8. When the name is accepted and the payload cannot be read as a
    sheet, the answer has status 500 with the text of the reader's error;
    the payload was read once, and the store, with the collection of an
    earlier upload, is as before. *)
Theorem upload_unreadable_sheet (env : Env) (f : UploadFile)
    (user_id message : string) (w : World) :
  (∃ stem, filename f = stem ++ ".xlsx" ∨ filename f = stem ++ ".xls") →
  read_excel env (file f) = inl message →
  upload_expenses env f user_id w
  = (inl (HTTPException 500 message),
     {| store := store w; calls := (calls w ++ [ReadExcel (file f)])%list |}).
Proof.
  intros Hext%accepted_extension_iff Hread.
  rewrite upload_expenses_run by done.
  by rewrite (upload_steps_unreadable _ _ _ _ message).
Qed.

Lemma upload_unreadable_sheet_witness :
  upload_expenses (demo_env (inl "File is not a zip file") unit_embeddings)
    sheet_xlsx "user-1" uploaded_world
  = (inl (HTTPException 500 "File is not a zip file"),
     {| store := store uploaded_world;
        calls := (calls uploaded_world ++ [ReadExcel (file sheet_xlsx)])%list |}).
Proof.
  apply (upload_unreadable_sheet
           (demo_env (inl "File is not a zip file") unit_embeddings)
           sheet_xlsx "user-1" "File is not a zip file" uploaded_world).
  - exists "expenses". by left.
  - reflexivity.
Defined.

(** The steps of an upload read the payload once and make no other
    outbound call. *)
Lemma upload_steps_calls (env : Env) (f : UploadFile) (user_id : string)
    (w : World) :
  calls (upload_steps env f user_id w).2 = (calls w ++ [ReadExcel (file f)])%list.
Proof.
  destruct (read_excel env (file f)) as [e|df] eqn:Hread;
    [by rewrite (upload_steps_unreadable _ _ _ _ e)|].
  destruct (decide (missing_columns df = [])) as [Hmiss|Hmiss];
    [|by rewrite (upload_steps_missing _ _ _ _ df)].
  destruct (process_excel_data df) as [e|chunks] eqn:Hproc;
    [by rewrite (upload_steps_unprocessed _ _ _ _ df e)|].
  rewrite (upload_steps_processed _ _ _ _ df chunks) by done. cbv zeta.
  destruct (create_error env _); [done|].
  destruct (embed_documents env _); [done|].
  destruct (negb _); [done|].
  by destruct (add_error env _).
Qed.

(** X9. The upload endpoint answers with status 200, 400 or 500, and with
    400 exactly when the file name ends neither in [.xlsx] nor in [.xls];
    it never sends an HTTP request: its only outbound call is the reading
    of the payload, at most once. *)
Theorem upload_outcomes (env : Env) (f : UploadFile) (user_id : string)
    (w : World) :
  (http_status (upload_expenses env f user_id w).1 = 200%nat
   ∨ http_status (upload_expenses env f user_id w).1 = 400%nat
   ∨ http_status (upload_expenses env f user_id w).1 = 500%nat)
  ∧ (http_status (upload_expenses env f user_id w).1 = 400%nat
     ↔ ¬ ∃ stem, filename f = stem ++ ".xlsx" ∨ filename f = stem ++ ".xls")
  ∧ (calls (upload_expenses env f user_id w).2 = calls w
     ∨ calls (upload_expenses env f user_id w).2
       = (calls w ++ [ReadExcel (file f)])%list).
Proof.
  rewrite <- accepted_extension_iff.
  destruct (PyStr.endswith_any (filename f) [".xlsx"; ".xls"]) eqn:Hext.
  - rewrite upload_expenses_run by done.
    pose proof (upload_steps_calls env f user_id w) as Hcalls.
    destruct (upload_steps env f user_id w) as [[e|x] w']; cbn [fst snd] in *;
      (split_and!; [auto|split; [discriminate|done]|auto]).
  - unfold upload_expenses. rewrite Hext. cbn [negb fst snd http_status].
    split_and!; [auto|split; [discriminate|done]|auto].
Qed.

(** X10. The chat endpoint never writes to the store.  It answers with
    status 200, 404 or 500, and with 404 exactly when nothing is stored
    under the user's collection name.  It makes at most one outbound call,
    a POST to the completion endpoint, and none when the collection is
    missing. *)
Theorem chat_outcomes (env : Env) (request : ChatRequest) (w : World) :
  store (chat env request w).2 = store w
  ∧ (http_status (chat env request w).1 = 200%nat
     ∨ http_status (chat env request w).1 = 404%nat
     ∨ http_status (chat env request w).1 = 500%nat)
  ∧ (http_status (chat env request w).1 = 404%nat
     ↔ store w !! collection_name (user_id request) = None)
  ∧ (calls (chat env request w).2 = calls w
     ∨ ∃ context,
         calls (chat env request w).2
         = (calls w ++ [Post LM_STUDIO_URL 30
                          (completion_body (question request) context)])%list)
  ∧ (store w !! collection_name (user_id request) = None →
     calls (chat env request w).2 = calls w).
Proof.
  destruct (store w !! collection_name (user_id request)) as [c|] eqn:Hc.
  - rewrite (chat_found env request w c Hc).
    destruct (embed_query env (question request)) as [e|v].
    { cbn. split_and!; [done|tauto|split; discriminate|tauto|discriminate]. }
    destruct (nearest env (coll_entries c) v 5) as [e|results].
    { cbn. split_and!; [done|tauto|split; discriminate|tauto|discriminate]. }
    cbv zeta. cbn [fst snd after_call store calls].
    split_and!.
    + done.
    + destruct (completion_outcome env _ _) as [cause|[]]; cbn; tauto.
    + split; [|discriminate].
      destruct (completion_outcome env _ _) as [cause|[]]; cbn; discriminate.
    + right. eauto.
    + discriminate.
  - rewrite (chat_not_found env request w Hc). cbn. split_and!; tauto.
Qed.

(** X11. The health endpoint never raises and never writes to the store:
    it sends one GET with a time-out of 5 seconds and answers with status
    [healthy]; [lm_studio_connected] is true exactly when the GET was
    answered with status 200, so any other status counts as not connected,
    like no answer at all. *)
Theorem health_check_connected_iff (env : Env) (w : World) :
  ∃ connected,
    health_check env w
    = (inr {| status := "healthy"; lm_studio_connected := connected |},
       {| store := store w;
          calls := (calls w ++ [Get "http://10.0.85.2:1234/v1/models" 5])%list |})
    ∧ (connected = true
       ↔ ∃ response,
           http_get env "http://10.0.85.2:1234/v1/models" 5 = inr response
           ∧ status_code response = 200%nat).
Proof.
  unfold health_check. unfold_M. unfold health_probe_url.
  destruct (http_get env _ _) as [e|response]; cbn [outcome].
  - exists false. split; [done|]. split; [discriminate|]. by intros (? & ? & _).
  - exists (status_code response =? 200)%nat. split; [done|].
    rewrite Nat.eqb_eq. split; [eauto|]. by intros (? & [= <-] & ?).
Qed.

(** X12. A completion answer whose status is not in 200..299 is an error
    even when its body carries a completion: the answer generator raises
    status 500 with the text of the status error, after its one request. *)
Theorem completion_needs_success_status (env : Env) (prompt context : string)
    (w : World) (response : Response) :
  http_post env LM_STUDIO_URL 30 (completion_body prompt context) = inr response →
  (status_code response < 200 ∨ 300 ≤ status_code response)%nat →
  call_lm_studio env prompt context w
  = (inl (HTTPException 500 ("LM Studio error: " ++ status_error response)),
     {| store := store w;
        calls := (calls w ++ [Post LM_STUDIO_URL 30
                                (completion_body prompt context)])%list |}).
Proof.
  intros Hpost Hstatus. rewrite call_lm_studio_run.
  unfold completion_outcome. rewrite Hpost.
  replace ((200 <=? status_code response)%nat
           && (status_code response <? 300)%nat) with false; [done|].
  symmetry. apply andb_false_iff.
  rewrite Nat.leb_gt, Nat.ltb_ge. lia.
Qed.

Lemma completion_needs_success_status_witness :
  call_lm_studio (post_env (inr busy_response)) "How much?" "Month: 2024-01"
    fresh_world
  = (inl (HTTPException 500
            ("LM Studio error: " ++ status_error busy_response)),
     {| store := store fresh_world;
        calls := (calls fresh_world
                    ++ [Post LM_STUDIO_URL 30
                          (completion_body "How much?" "Month: 2024-01")])%list |}).
Proof.
  apply (completion_needs_success_status (post_env (inr busy_response))
           "How much?" "Month: 2024-01" fresh_world busy_response).
  - reflexivity.
  - right. cbn. lia.
Defined.

(** X13. From a successful JSON answer the answer generator reads the
    content of the message of the first choice and ignores further
    choices; a body without [choices], with an empty list of choices, or
    whose first choice lacks [message] or [content] raises status 500 with
    the text of the Python error: the missing key in quotes, or
    [list index out of range]. *)
Theorem completion_reads_first_choice (env : Env) (prompt context : string)
    (w : World) (response : Response) (items : list (string * JSON)) :
  http_post env LM_STUDIO_URL 30 (completion_body prompt context) = inr response →
  (200 ≤ status_code response < 300)%nat →
  json response = inr (JObj items) →
  match PyObj.lookup_key "choices" items with
  | None =>
      (call_lm_studio env prompt context w).1
      = inl (HTTPException 500 "LM Studio error: 'choices'")
  | Some (JArr []) =>
      (call_lm_studio env prompt context w).1
      = inl (HTTPException 500 "LM Studio error: list index out of range")
  | Some (JArr (JObj choice :: _)) =>
      match PyObj.lookup_key "message" choice with
      | None =>
          (call_lm_studio env prompt context w).1
          = inl (HTTPException 500 "LM Studio error: 'message'")
      | Some (JObj message) =>
          match PyObj.lookup_key "content" message with
          | None =>
              (call_lm_studio env prompt context w).1
              = inl (HTTPException 500 "LM Studio error: 'content'")
          | Some content => (call_lm_studio env prompt context w).1 = inr content
          end
      | Some _ => True
      end
  | Some _ => True
  end.
Proof.
  intros Hpost [Hlo Hhi] Hjson. rewrite call_lm_studio_run. cbn [fst].
  unfold completion_outcome. rewrite Hpost, Hjson.
  replace ((200 <=? status_code response)%nat
           && (status_code response <? 300)%nat) with true
    by (symmetry; apply andb_true_iff; by rewrite Nat.leb_le, Nat.ltb_lt).
  unfold completion_content. cbn [PyObj.getitem_key].
  destruct (PyObj.lookup_key "choices" items) as [[| | | | |[|[| | | | | |choice] ?]|]|];
    try done.
  cbn [PyObj.getitem_0 PyObj.getitem_key].
  destruct (PyObj.lookup_key "message" choice) as [[| | | | | |message]|];
    try done.
  cbn [PyObj.getitem_key].
  by destruct (PyObj.lookup_key "content" message).
Qed.

Lemma completion_reads_first_choice_witness :
  (call_lm_studio (post_env (inr error_body_response)) "How much?"
     "Month: 2024-01" fresh_world).1
  = inl (HTTPException 500 "LM Studio error: 'choices'").
Proof.
  apply (completion_reads_first_choice (post_env (inr error_body_response))
           "How much?" "Month: 2024-01" fresh_world error_body_response
           [("error", JStr "model not loaded")]).
  - reflexivity.
  - cbn. lia.
  - reflexivity.
Defined.

(** * Further properties of the naming and of the order of the chunks *)

Lemma replace_removes (old new : ascii) (s : string) :
  old ≠ new → str_contains old (PyStr.replace old new s) = false.
Proof.
  intros Hne. induction s as [|c s IH]; [done|].
  cbn [PyStr.replace str_contains]. rewrite IH, orb_false_r.
  destruct (Ascii.eqb_spec c old) as [->|Hc].
  - by apply Ascii.eqb_neq.
  - by apply Ascii.eqb_neq.
Qed.

Lemma replace_absent (old new : ascii) (s : string) :
  str_contains old s = false → PyStr.replace old new s = s.
Proof.
  induction s as [|c s IH]; [done|]. cbn [PyStr.replace str_contains].
  intros [Hc Hs]%orb_false_iff. by rewrite Hc, IH.
Qed.

Lemma length_replace (old new : ascii) (s : string) :
  String.length (PyStr.replace old new s) = String.length s.
Proof. induction s as [|c s IH]; [done|]. cbn. by rewrite IH. Qed.

(** X14. Two user identifiers share a collection exactly when they agree
    once every hyphen is an underscore.  The name holds no hyphen and is
    nine characters longer than the identifier, and identifiers without
    hyphen never share a collection. *)
Theorem collection_name_collisions (a b : string) :
  (collection_name a = collection_name b
   ↔ PyStr.replace "-" "_" a = PyStr.replace "-" "_" b)
  ∧ str_contains "-" (collection_name a) = false
  ∧ String.length (collection_name a) = (9 + String.length a)%nat
  ∧ (str_contains "-" a = false → str_contains "-" b = false →
     collection_name a = collection_name b → a = b).
Proof.
  assert (collection_name a = collection_name b
          ↔ PyStr.replace "-" "_" a = PyStr.replace "-" "_" b) as Hiff.
  { unfold collection_name. split; [apply String.app_inj|by intros ->]. }
  split_and!.
  - exact Hiff.
  - unfold collection_name. cbn. by apply replace_removes.
  - unfold collection_name. by rewrite length_append, length_replace.
  - intros Ha Hb Hab%Hiff. by rewrite !replace_absent in Hab.
Qed.

#[local] Instance period_le_total : Total period_le.
Proof. intros [y m] [y' m']. unfold period_le. cbn. lia. Qed.

#[local] Instance str_le_total : Total str_le.
Proof. intros s1 s2. apply String.leb_total. Qed.


(** X16. A collection without entries is no missing collection: when the
    retrieval returns nothing (as for the empty collection that a failed
    upload leaves behind), chat does not answer 404; it still sends its one
    request, with an empty context, and a string completion is returned
    with an empty list of sources. *)
Theorem chat_with_no_results (env : Env) (q user : string) (w : World)
    (c : Collection) (v : Vector) :
  store w !! collection_name user = Some c →
  embed_query env q = inr v →
  nearest env (coll_entries c) v 5 = inr [] →
  (chat env {| question := q; user_id := user |} w).2
  = {| store := store w;
       calls :=
         (calls w
            ++ [Post LM_STUDIO_URL 30
                  {| messages :=
                       [ {| role := "system"; content := system_message |};
                         {| role := "user";
                            content := "Context:" ++ PyStr.nl ++ PyStr.nl
                                         ++ PyStr.nl ++ "Question: " ++ q |} ];
                     temperature := 7 # 10;
                     max_tokens := 500;
                     stream := false |}])%list |}
  ∧ http_status (chat env {| question := q; user_id := user |} w).1 ≠ 404%nat
  ∧ match completion_outcome env q "" with
    | inr (JStr s) =>
        (chat env {| question := q; user_id := user |} w).1
        = inr {| answer := s; sources := [] |}
    | _ => http_status (chat env {| question := q; user_id := user |} w).1
           = 500%nat
    end.
Proof.
  intros Hc Hv Hres.
  rewrite (chat_found env {| question := q; user_id := user |} w c Hc).
  cbn [question]. rewrite Hv, Hres. cbv zeta. cbn [fst snd fmap list_fmap PyStr.join].
  split_and!; [done| |];
    destruct (completion_outcome env q "") as [cause|[]]; cbn; done.
Qed.

Lemma chat_with_no_results_witness :
  (chat (demo_env (inr two_transactions) unit_embeddings) how_much
     embedding_failure_world).2
  = {| store := store embedding_failure_world;
       calls :=
         (calls embedding_failure_world
            ++ [Post LM_STUDIO_URL 30
                  {| messages :=
                       [ {| role := "system"; content := system_message |};
                         {| role := "user";
                            content := "Context:" ++ PyStr.nl ++ PyStr.nl
                                         ++ PyStr.nl ++ "Question: "
                                         ++ question how_much |} ];
                     temperature := 7 # 10;
                     max_tokens := 500;
                     stream := false |}])%list |}
  ∧ http_status
      (chat (demo_env (inr two_transactions) unit_embeddings) how_much
         embedding_failure_world).1 ≠ 404%nat
  ∧ (chat (demo_env (inr two_transactions) unit_embeddings) how_much
       embedding_failure_world).1
    = inr {| answer := "You spent $1204.50."; sources := [] |}.
Proof.
  apply (chat_with_no_results
           (demo_env (inr two_transactions) unit_embeddings)
           (question how_much) "user-1" embedding_failure_world
           (new_collection "user-1" []) [1%Q]).
  - vm_compute. reflexivity.
  - reflexivity.
  - reflexivity.
Defined.
